(** * Key resolution and validation of [framework.llm.anthropic]

    A shallow embedding of [src/core/framework/llm/anthropic.py]:
    - Python [str] values are lists of Unicode code points;
    - [_validate_api_key] is a pure function into a result type whose
      error side carries the [ValueError] that the source raises;
    - [_get_api_key_from_credential_store] and [AnthropicProvider.__init__]
      run in a small reader/trace/exception monad: the reader holds the
      process surroundings (the optional [aden_tools] package and
      [os.environ]), the trace records every lookup that is performed. *)

From Stdlib Require Import NArith String Ascii.
From stdpp Require Import base option list gmap.

Local Open Scope N_scope.

(** ** Python strings *)

Definition char := N.
Definition str := list char.

(** A Rocq string literal read as a Python [str] (one code point per
    character; only used for the ASCII literals of the source). *)
Definition of_string (s : string) : str :=
  map N_of_ascii (list_ascii_of_string s).

(** Truth value of a [str]: the empty string is falsy. *)
Definition str_bool (s : str) : bool :=
  match s with
  | [] => false
  | _ :: _ => true
  end.

(** [str.isspace] on one code point, as CPython's [_PyUnicode_IsWhitespace]
    decides it; this is the set that [str.strip()] removes. *)
Definition isspace (c : char) : bool :=
  ((0x09 <=? c) && (c <=? 0x0D))
  || ((0x1C <=? c) && (c <=? 0x20))
  || (c =? 0x85) || (c =? 0xA0) || (c =? 0x1680)
  || ((0x2000 <=? c) && (c <=? 0x200A))
  || (c =? 0x2028) || (c =? 0x2029) || (c =? 0x202F)
  || (c =? 0x205F) || (c =? 0x3000).

Fixpoint lstrip (s : str) : str :=
  match s with
  | [] => []
  | c :: t => if isspace c then lstrip t else s
  end.

Definition rstrip (s : str) : str := rev (lstrip (rev s)).

(** [s.strip()] with no argument. *)
Definition strip (s : str) : str := rstrip (lstrip s).

(** [s.startswith(prefix)] *)
Fixpoint startswith (s prefix : str) {struct prefix} : bool :=
  match prefix, s with
  | [], _ => true
  | _ :: _, [] => false
  | p :: ps, c :: cs => (c =? p) && startswith cs ps
  end.

(** [s.endswith(suffix)] *)
Definition endswith (s suffix : str) : bool :=
  startswith (rev s) (rev suffix).

(** [c in s] for a one-character string [c]. *)
Definition contains (s : str) (c : char) : bool :=
  existsb (N.eqb c) s.

(** [s[:n]] *)
Definition slice_to (n : nat) (s : str) : str := firstn n s.

(** ** Exceptions *)

(** The five [ValueError]s of the module, named as the specification's
    error taxonomy names them.  [UnexpectedFormat] carries
    [normalized_key[:10]], which the source interpolates in its message. *)
Inductive Reason : Type :=
  | MissingCredential
  | EmptyOrWhitespace
  | ControlCharacters
  | QuotedKey
  | UnexpectedFormat (shown : str).

Inductive exn : Type :=
  | ImportError
  | ValueError (r : Reason).

(** The text each [ValueError] is raised with. *)
Definition message (r : Reason) : str :=
  match r with
  | MissingCredential =>
      of_string "Anthropic API key required. Set ANTHROPIC_API_KEY env var or pass api_key."
  | EmptyOrWhitespace =>
      of_string "Anthropic API key is empty or contains only whitespace. "
      ++ of_string "Check your ANTHROPIC_API_KEY environment variable or "
      ++ of_string "api_key parameter."
  | ControlCharacters =>
      of_string "Anthropic API key contains control characters (newline, tab, etc.). "
      ++ of_string "This is likely a copy-paste error. Please check your key."
  | QuotedKey =>
      of_string "Anthropic API key appears to be quoted. "
      ++ of_string "Remove the surrounding quotes from your configuration."
  | UnexpectedFormat shown =>
      of_string "Anthropic API key has unexpected format "
      ++ of_string "(expected to start with 'sk-ant-'). "
      ++ of_string "Received key starting with: '" ++ shown ++ of_string "...'"
  end.

(** The reasons that [_validate_api_key] can raise. *)
Definition is_validator_reason (r : Reason) : bool :=
  match r with
  | MissingCredential => false
  | _ => true
  end.

Inductive result (A : Type) : Type :=
  | Ok (a : A)
  | Raise (e : exn).
Arguments Ok {A} a.
Arguments Raise {A} e.

(** ** The validator *)

(** The characters of the literal ['\n\r\t\x0b\x0c'], in source order. *)
Definition control_chars : str := [0x0A; 0x0D; 0x09; 0x0B; 0x0C].

Definition double_quote : str := [0x22].
Definition single_quote : str := [0x27].
Definition key_prefix : str := of_string "sk-ant-".

Definition _validate_api_key (api_key : str) : result str :=
  if negb (str_bool api_key) || negb (str_bool (strip api_key)) then
    Raise (ValueError EmptyOrWhitespace)
  else if existsb (fun c => contains api_key c) control_chars then
    Raise (ValueError ControlCharacters)
  else
    let normalized_key := strip api_key in
    if (startswith normalized_key double_quote && endswith normalized_key double_quote)
       || (startswith normalized_key single_quote && endswith normalized_key single_quote)
    then Raise (ValueError QuotedKey)
    else if negb (startswith normalized_key key_prefix) then
      Raise (ValueError (UnexpectedFormat (slice_to 10 normalized_key)))
    else Ok normalized_key.

(** ** Surroundings and effects *)

(** What [CredentialStoreAdapter.default()] answers to the two calls the
    module makes.  The adapter lives in the [aden_tools] package, outside
    this module, so it is taken as given: any pair of answers is allowed.
    [get] may answer [None], as the return annotation [str | None] of
    [_get_api_key_from_credential_store] admits; an adapter whose methods
    raise is not described here. *)
Record CredentialStoreAdapter : Type := {
  is_available : str -> bool;
  get : str -> option str
}.

(** The surroundings a call runs in.  [aden_tools_credentials = None] is
    the deployment in which [from aden_tools.credentials import ...] raises
    [ImportError]; [environ] is [os.environ]. *)
Record World : Type := {
  aden_tools_credentials : option CredentialStoreAdapter;
  environ : gmap str str
}.

(** The lookups a computation performs, in the order it performs them. *)
Inductive Event : Type :=
  | ImportCredentials
  | StoreIsAvailable (name : str)
  | StoreGet (name : str)
  | EnvironGet (name : str).

(** Reader over the surroundings, writer of the lookup trace, exceptions. *)
Definition M (A : Type) : Type :=
  World -> list Event -> result A * list Event.

#[global] Instance M_ret : MRet M := fun A a _ tr => (Ok a, tr).

#[global] Instance M_bind : MBind M := fun A B k m w tr =>
  match m w tr with
  | (Ok a, tr') => k a w tr'
  | (Raise e, tr') => (Raise e, tr')
  end.

Definition raise {A} (e : exn) : M A := fun _ tr => (Raise e, tr).

Definition lift {A} (r : result A) : M A := fun _ tr => (r, tr).

Definition ask : M World := fun w tr => (Ok w, tr).

Definition log (e : Event) : M unit := fun _ tr => (Ok tt, tr ++ [e]).

(** [try: body  except ImportError: handler] *)
Definition try_except_ImportError {A} (body handler : M A) : M A :=
  fun w tr =>
    match body w tr with
    | (Raise ImportError, tr') => handler w tr'
    | other => other
    end.

(** Run a computation from an empty trace. *)
Definition run {A} (m : M A) (w : World) : result A * list Event := m w [].

Definition outcome {A} (m : M A) (w : World) : result A := fst (run m w).
Definition lookups {A} (m : M A) (w : World) : list Event := snd (run m w).

(** [from aden_tools.credentials import CredentialStoreAdapter] followed by
    [CredentialStoreAdapter.default()]. *)
Definition import_CredentialStoreAdapter_default : M CredentialStoreAdapter :=
  log ImportCredentials;;
  w ← ask;
  match aden_tools_credentials w with
  | Some creds => mret creds
  | None => raise ImportError
  end.

Definition creds_is_available (creds : CredentialStoreAdapter) (name : str) : M bool :=
  log (StoreIsAvailable name);; mret (is_available creds name).

Definition creds_get (creds : CredentialStoreAdapter) (name : str) : M (option str) :=
  log (StoreGet name);; mret (get creds name).

(** [os.environ.get(name)] *)
Definition os_environ_get (name : str) : M (option str) :=
  log (EnvironGet name);; w ← ask; mret (environ w !! name).

(** ** The resolver *)

Definition anthropic : str := of_string "anthropic".
Definition ANTHROPIC_API_KEY : str := of_string "ANTHROPIC_API_KEY".

(** The [try] block either returns from the function ([Some v], with [v]
    the returned value) or falls through to the statement after it
    ([None]). *)
Definition _get_api_key_from_credential_store : M (option str) :=
  returned ← try_except_ImportError
    (creds ← import_CredentialStoreAdapter_default;
     available ← creds_is_available creds anthropic;
     if available : bool then
       v ← creds_get creds anthropic; mret (Some v)
     else mret None)
    (mret None);
  match returned with
  | Some v => mret v
  | None => os_environ_get ANTHROPIC_API_KEY
  end.

(** Truth value of a [str | None]. *)
Definition truthy (v : option str) : bool :=
  match v with
  | Some s => str_bool s
  | None => false
  end.

(** [api_key or _get_api_key_from_credential_store()]: the right operand is
    evaluated only when the left one is falsy. *)
Definition raw_api_key (api_key : option str) : M (option str) :=
  if truthy api_key then mret api_key
  else _get_api_key_from_credential_store.

(** ** The provider *)

(** The delegate handle: [LiteLLMProvider(model=..., api_key=...)], kept as
    the two arguments it was built from. *)
Module LiteLLMProvider.
Record t : Type := { model : str; api_key : str }.
End LiteLLMProvider.

Module AnthropicProvider.

Record t : Type := {
  api_key : str;
  model : str;
  _provider : LiteLLMProvider.t
}.

Definition default_model : str := of_string "claude-haiku-4-5-20251001".

Definition __init__ (key : option str) (model_name : str) : M t :=
  raw ← raw_api_key key;
  match raw with
  | Some raw_key =>
      if negb (str_bool raw_key) then raise (ValueError MissingCredential)
      else
        validated ← lift (_validate_api_key raw_key);
        mret {| api_key := validated;
                model := model_name;
                _provider := {| LiteLLMProvider.model := model_name;
                                LiteLLMProvider.api_key := validated |} |}
  | None => raise (ValueError MissingCredential)
  end.

End AnthropicProvider.

(** ** Vocabulary of the specification *)

(** Empty, or made of whitespace only. *)
Definition whitespace_only (s : str) : bool := forallb isspace s.

(** Some character of [control_chars] occurs in [s]. *)
Definition has_control_char (s : str) : bool :=
  existsb (fun c => contains s c) control_chars.

(** [s] starts and ends with the same quote character. *)
Definition quote_wrapped (s : str) : bool :=
  (startswith s double_quote && endswith s double_quote)
  || (startswith s single_quote && endswith s single_quote).

(** The value the credential store contributes: what [get] returns when the
    package is importable and reports the credential available. *)
Definition store_value (w : World) : option str :=
  match aden_tools_credentials w with
  | Some creds =>
      if is_available creds anthropic then get creds anthropic else None
  | None => None
  end.

(** The invariant of a stored key: non-empty, free of the five control
    characters, no whitespace at either end, not wrapped in a pair of equal
    quote characters, and starting with [sk-ant-]. *)
Definition key_invariant (k : str) : Prop :=
  k <> []
  /\ (forall c, In c control_chars -> ~ In c k)
  /\ (forall c t, k = c :: t -> isspace c = false)
  /\ (forall t c, k = t ++ [c] -> isspace c = false)
  /\ (forall q, In q (double_quote ++ single_quote) ->
        ~ ((exists t, k = q :: t) /\ (exists t, k = t ++ [q])))
  /\ (exists rest, k = key_prefix ++ rest).

(** ** Sample surroundings *)

(** A store that holds a key for ["anthropic"] only. *)
Definition store_with (v : str) : CredentialStoreAdapter :=
  {| is_available := fun name => bool_decide (name = anthropic);
     get := fun name => if bool_decide (name = anthropic) then Some v else None |}.

(** A store that reports ["anthropic"] available and returns [None] for it. *)
Definition store_silent : CredentialStoreAdapter :=
  {| is_available := fun name => bool_decide (name = anthropic);
     get := fun _ => None |}.

(** A store that holds nothing. *)
Definition store_empty : CredentialStoreAdapter :=
  {| is_available := fun _ => false; get := fun _ => None |}.

Definition env_with (v : str) : gmap str str := {[ ANTHROPIC_API_KEY := v ]}.

Definition world_both_set : World :=
  {| aden_tools_credentials := Some (store_with (of_string "sk-ant-store"));
     environ := env_with (of_string "sk-ant-env") |}.

Definition world_store_silent : World :=
  {| aden_tools_credentials := Some store_silent;
     environ := env_with (of_string "sk-ant-env") |}.

Definition world_store_empty : World :=
  {| aden_tools_credentials := Some store_empty;
     environ := env_with (of_string "sk-ant-env") |}.

Definition world_no_store : World :=
  {| aden_tools_credentials := None;
     environ := env_with (of_string "sk-ant-env") |}.

Definition world_bare : World :=
  {| aden_tools_credentials := None; environ := ∅ |}.

Definition world_empty_variable : World :=
  {| aden_tools_credentials := Some store_empty; environ := env_with [] |}.

(** ** The forwarding methods *)

(** [complete] and [complete_with_tools] hand every argument to the method
    of the same name of [self._provider].  The delegate is outside this
    module: its argument and answer types and its two methods are taken as
    given.  [LLMResponse] stands for whatever a call of the delegate does,
    a returned response or a raised exception alike.  A parameter with a
    default is an [option]: [None] is the call that omits it. *)
Section Facade.

Variables Messages Tool ToolExecutor ResponseFormat LLMResponse : Type.

Variable delegate_complete :
  LiteLLMProvider.t -> Messages -> str -> option (list Tool) -> Z ->
  option ResponseFormat -> bool -> LLMResponse.

Variable delegate_complete_with_tools :
  LiteLLMProvider.t -> Messages -> str -> list Tool -> ToolExecutor -> Z ->
  LLMResponse.

Definition complete (self : AnthropicProvider.t) (messages : Messages)
    (system : option str) (tools : option (list Tool))
    (max_tokens : option Z) (response_format : option ResponseFormat)
    (json_mode : option bool) : LLMResponse :=
  delegate_complete (AnthropicProvider._provider self) messages
    (default [] system) tools (default 1024%Z max_tokens) response_format
    (default false json_mode).

Definition complete_with_tools (self : AnthropicProvider.t)
    (messages : Messages) (system : str) (tools : list Tool)
    (tool_executor : ToolExecutor) (max_iterations : option Z) : LLMResponse :=
  delegate_complete_with_tools (AnthropicProvider._provider self) messages
    system tools tool_executor (default 10%Z max_iterations).

End Facade.

(** ** Further vocabulary *)

(** The instance lines 108-115 build from a validated key. *)
Definition instance (model_name validated : str) : AnthropicProvider.t :=
  {| AnthropicProvider.api_key := validated;
     AnthropicProvider.model := model_name;
     AnthropicProvider._provider :=
       {| LiteLLMProvider.model := model_name;
          LiteLLMProvider.api_key := validated |} |}.

(** Lines 108-115 on the validator's answer: an instance, or the
    validator's exception unchanged. *)
Definition construction (model_name : str) (r : result str)
  : result AnthropicProvider.t :=
  match r with
  | Ok validated => Ok (instance model_name validated)
  | Raise e => Raise e
  end.

(** The store is importable and reports ["anthropic"] available. *)
Definition store_offers (w : World) : bool :=
  match aden_tools_credentials w with
  | Some creds => is_available creds anthropic
  | None => false
  end.

(** The surroundings after [os.environ[name] = v]. *)
Definition setenv (w : World) (name v : str) : World :=
  {| aden_tools_credentials := aden_tools_credentials w;
     environ := <[name := v]> (environ w) |}.

(** The surroundings after [del os.environ[name]]. *)
Definition unsetenv (w : World) (name : str) : World :=
  {| aden_tools_credentials := aden_tools_credentials w;
     environ := delete name (environ w) |}.

(** Two surroundings that answer alike about ["anthropic"] and about
    [ANTHROPIC_API_KEY]; they may differ in everything else. *)
Definition same_anthropic_sources (w1 w2 : World) : Prop :=
  match aden_tools_credentials w1, aden_tools_credentials w2 with
  | Some c1, Some c2 =>
      is_available c1 anthropic = is_available c2 anthropic
      /\ get c1 anthropic = get c2 anthropic
  | None, None => True
  | _, _ => False
  end
  /\ environ w1 !! ANTHROPIC_API_KEY = environ w2 !! ANTHROPIC_API_KEY.


(** A store that answers about other providers too. *)
Definition store_busy : CredentialStoreAdapter :=
  {| is_available := fun name => negb (bool_decide (name = anthropic));
     get := fun name => if bool_decide (name = anthropic) then None
                        else Some (of_string "sk-other") |}.

Definition world_busy : World :=
  {| aden_tools_credentials := Some store_busy;
     environ := <[of_string "HOME" := of_string "/root"]>
                  (env_with (of_string "sk-ant-env")) |}.

(** * Properties *)

(** ** Strings *)

Section StripFacts.

Implicit Types (s t l r : str) (c : char).

Lemma contains_In s c : contains s c = true <-> In c s.
Proof.
  unfold contains. rewrite existsb_exists. split.
  - intros (x & Hx & Heq). apply N.eqb_eq in Heq. now subst.
  - intros Hin. exists c. split; [assumption | apply N.eqb_refl].
Qed.

Lemma has_control_char_spec s :
  has_control_char s = true <-> exists c, In c control_chars /\ In c s.
Proof.
  unfold has_control_char. rewrite existsb_exists.
  split; intros (c & Hc & Hs); exists c; split; try assumption;
    now apply contains_In.
Qed.

Lemma whitespace_only_spec s :
  whitespace_only s = true <-> forall c, In c s -> isspace c = true.
Proof. apply forallb_forall. Qed.

Lemma startswith_spec s p : startswith s p = true <-> exists t, s = p ++ t.
Proof.
  revert s. induction p as [|a p IH]; intros s; simpl.
  - split; [intros _; now exists s | reflexivity].
  - destruct s as [|c s].
    + split; [discriminate | intros (t & Ht); discriminate].
    + rewrite andb_true_iff, N.eqb_eq, IH. split.
      * intros (-> & t & ->). now exists t.
      * intros (t & Ht). injection Ht as -> ->. split; [reflexivity | now exists t].
Qed.

Lemma endswith_spec s p : endswith s p = true <-> exists t, s = t ++ p.
Proof.
  unfold endswith. rewrite startswith_spec. split; intros (t & Ht).
  - exists (rev t). apply (f_equal (@rev char)) in Ht.
    now rewrite rev_involutive, rev_app_distr, rev_involutive in Ht.
  - exists (rev t). subst s. apply rev_app_distr.
Qed.

(** [lstrip] removes a whitespace prefix and nothing else. *)
Lemma lstrip_split s :
  exists l, s = l ++ lstrip s /\ whitespace_only l = true.
Proof.
  induction s as [|c s (l & Hl & Hws)]; simpl.
  - now exists [].
  - destruct (isspace c) eqn:Hc.
    + exists (c :: l). simpl. rewrite Hc, Hws. split; [now f_equal | reflexivity].
    + now exists [].
Qed.

Lemma lstrip_head s c t : lstrip s = c :: t -> isspace c = false.
Proof.
  induction s as [|a s IH]; simpl; [discriminate |].
  destruct (isspace a) eqn:Ha; [exact IH |].
  intros [= <- _]. exact Ha.
Qed.

Lemma lstrip_fixed s :
  (forall c t, s = c :: t -> isspace c = false) -> lstrip s = s.
Proof.
  destruct s as [|c s]; [reflexivity |].
  intros H. simpl. now rewrite (H c s eq_refl).
Qed.

Lemma lstrip_nil s : lstrip s = [] <-> whitespace_only s = true.
Proof.
  induction s as [|c s IH]; simpl; [tauto |].
  destruct (isspace c); simpl; [exact IH |].
  split; discriminate.
Qed.

Lemma whitespace_only_rev s : whitespace_only (rev s) = whitespace_only s.
Proof.
  unfold whitespace_only. induction s as [|c s IH]; [reflexivity |].
  simpl. rewrite forallb_app, IH. simpl. destruct (isspace c), (forallb isspace s); reflexivity.
Qed.

Lemma whitespace_only_app l r :
  whitespace_only (l ++ r) = whitespace_only l && whitespace_only r.
Proof. apply forallb_app. Qed.

(** [rstrip] removes a whitespace suffix and nothing else. *)
Lemma rstrip_split s :
  exists r, s = rstrip s ++ r /\ whitespace_only r = true.
Proof.
  unfold rstrip. destruct (lstrip_split (rev s)) as (l & Hl & Hws).
  exists (rev l). rewrite whitespace_only_rev. split; [| assumption].
  apply (f_equal (@rev char)) in Hl.
  now rewrite rev_involutive, rev_app_distr in Hl.
Qed.

Lemma rstrip_last s t c : rstrip s = t ++ [c] -> isspace c = false.
Proof.
  unfold rstrip. intros H. apply (f_equal (@rev char)) in H.
  rewrite rev_involutive, rev_app_distr in H. simpl in H.
  now apply lstrip_head in H.
Qed.

Lemma rstrip_nil s : rstrip s = [] <-> whitespace_only s = true.
Proof.
  unfold rstrip. rewrite <- whitespace_only_rev, <- lstrip_nil.
  split; intros H.
  - apply (f_equal (@rev char)) in H. now rewrite rev_involutive in H.
  - now rewrite H.
Qed.

Lemma rstrip_fixed s :
  (forall t c, s = t ++ [c] -> isspace c = false) -> rstrip s = s.
Proof.
  intros H. unfold rstrip. rewrite lstrip_fixed; [apply rev_involutive |].
  intros c t Hrev. apply (H (rev t) c).
  apply (f_equal (@rev char)) in Hrev. now rewrite rev_involutive in Hrev.
Qed.

Lemma strip_split s :
  exists l r, s = l ++ strip s ++ r
              /\ whitespace_only l = true /\ whitespace_only r = true.
Proof.
  destruct (lstrip_split s) as (l & Hl & Hwl).
  destruct (rstrip_split (lstrip s)) as (r & Hr & Hwr).
  exists l, r. unfold strip. now rewrite <- Hr.
Qed.

Lemma strip_head s c t : strip s = c :: t -> isspace c = false.
Proof.
  unfold strip. intros H.
  destruct (rstrip_split (lstrip s)) as (r & Hr & _).
  rewrite H in Hr. simpl in Hr. now apply lstrip_head in Hr.
Qed.

Lemma strip_last s t c : strip s = t ++ [c] -> isspace c = false.
Proof. apply rstrip_last. Qed.

Lemma strip_nil s : strip s = [] <-> whitespace_only s = true.
Proof.
  unfold strip. rewrite rstrip_nil.
  destruct (lstrip_split s) as (l & Hl & Hwl).
  rewrite Hl at 2. rewrite whitespace_only_app, Hwl. reflexivity.
Qed.

Lemma strip_idempotent s : strip (strip s) = strip s.
Proof.
  unfold strip at 1. rewrite (lstrip_fixed (strip s)).
  - apply rstrip_fixed. intros t c. apply strip_last.
  - intros c t. apply strip_head.
Qed.

Lemma strip_In s c : In c (strip s) -> In c s.
Proof.
  destruct (strip_split s) as (l & r & Hs & _). intros Hin.
  rewrite Hs. apply in_or_app. right. apply in_or_app. now left.
Qed.

Lemma strip_no_control_char s :
  has_control_char s = false -> has_control_char (strip s) = false.
Proof.
  intros H. destruct (has_control_char (strip s)) eqn:E; [| reflexivity].
  apply has_control_char_spec in E as (c & Hc & Hin).
  rewrite <- H. symmetry. apply has_control_char_spec.
  exists c. split; [assumption | now apply strip_In].
Qed.

Lemma str_bool_nil s : str_bool s = false <-> s = [].
Proof. destruct s; simpl; split; (reflexivity || discriminate). Qed.

Lemma str_bool_strip s : str_bool (strip s) = negb (whitespace_only s).
Proof.
  destruct (whitespace_only s) eqn:E; simpl.
  - apply strip_nil in E. now rewrite E.
  - destruct (strip s) eqn:Es; [| reflexivity].
    apply strip_nil in Es. congruence.
Qed.

Lemma whitespace_only_strip s :
  whitespace_only (strip s) = whitespace_only s.
Proof.
  rewrite <- (negb_involutive (whitespace_only (strip s))).
  rewrite <- str_bool_strip, strip_idempotent, str_bool_strip.
  apply negb_involutive.
Qed.

(** A key that starts with [sk-ant-] is not wrapped in quotes. *)
Lemma prefixed_not_quoted s :
  startswith s key_prefix = true -> quote_wrapped s = false.
Proof.
  intros H. apply startswith_spec in H as (t & ->). reflexivity.
Qed.

End StripFacts.

(** ** The validator *)

Section ValidatorFacts.

Implicit Types (s k : str).

(** The first guard of the validator is exactly "whitespace only". *)
Lemma first_guard s :
  negb (str_bool s) || negb (str_bool (strip s)) = whitespace_only s.
Proof.
  rewrite str_bool_strip, negb_involutive.
  destruct s as [|c s]; [reflexivity |]. reflexivity.
Qed.

(** What a successful validation tells about its argument and result. *)
Lemma validate_ok_inv s k :
  _validate_api_key s = Ok k ->
  k = strip s
  /\ whitespace_only s = false
  /\ has_control_char s = false
  /\ quote_wrapped k = false
  /\ startswith k key_prefix = true.
Proof.
  unfold _validate_api_key. rewrite first_guard.
  fold (has_control_char s). fold (quote_wrapped (strip s)).
  destruct (whitespace_only s); [intros [=] |].
  destruct (has_control_char s); [intros [=] |].
  destruct (quote_wrapped (strip s)) eqn:Hq; [intros [=] |].
  destruct (startswith (strip s) key_prefix) eqn:Hp; simpl; [| intros [=]].
  intros [= <-]. repeat split; assumption.
Qed.

Lemma validate_ok_intro s :
  whitespace_only s = false ->
  has_control_char s = false ->
  startswith (strip s) key_prefix = true ->
  _validate_api_key s = Ok (strip s).
Proof.
  intros Hws Hcc Hp. unfold _validate_api_key. rewrite first_guard, Hws.
  fold (has_control_char s). rewrite Hcc.
  fold (quote_wrapped (strip s)). rewrite (prefixed_not_quoted _ Hp), Hp.
  reflexivity.
Qed.


End ValidatorFacts.

(** C3.  A string that is non-empty after trimming, has none of the five
    control characters, is not quote-wrapped once trimmed and whose trimmed
    form starts with [sk-ant-] is accepted, and the result is exactly the
    trimmed input: the input is the result between two runs of whitespace,
    and the result neither starts nor ends with whitespace. *)
Theorem validate_accepts_well_formed (s : str)
    (Hnonempty : str_bool (strip s) = true)
    (Hcontrol : has_control_char s = false)
    (Hquote : quote_wrapped (strip s) = false)
    (Hprefix : startswith (strip s) key_prefix = true) :
  _validate_api_key s = Ok (strip s)
  /\ (exists l r, s = l ++ strip s ++ r
                  /\ whitespace_only l = true /\ whitespace_only r = true)
  /\ (forall c t, strip s = c :: t -> isspace c = false)
  /\ (forall t c, strip s = t ++ [c] -> isspace c = false).
Proof.
  split; [| split; [apply strip_split | split]].
  - apply validate_ok_intro; try assumption.
    rewrite str_bool_strip in Hnonempty. now destruct (whitespace_only s).
  - apply strip_head.
  - apply strip_last.
Qed.

Lemma validate_accepts_well_formed_witness :
  let s := of_string "  sk-ant-abc123  " in
  str_bool (strip s) = true
  /\ has_control_char s = false
  /\ quote_wrapped (strip s) = false
  /\ startswith (strip s) key_prefix = true
  /\ _validate_api_key s = Ok (of_string "sk-ant-abc123").
Proof.
  intros s. repeat (split; [reflexivity |]).
  apply (validate_accepts_well_formed s); reflexivity.
Defined.

(** C5.  A string that is not whitespace-only and contains one of the five
    control characters anywhere in its raw form is rejected with
    ControlCharacters; the test is made on the untrimmed string, so a
    trailing newline that trimming would remove is still rejected. *)
Theorem validate_rejects_control_chars (s : str)
    (Hnotblank : whitespace_only s = false)
    (Hcontrol : has_control_char s = true) :
  _validate_api_key s = Raise (ValueError ControlCharacters).
Proof.
  unfold _validate_api_key. rewrite first_guard, Hnotblank.
  fold (has_control_char s). now rewrite Hcontrol.
Qed.

Lemma validate_rejects_control_chars_witness :
  let s := of_string "sk-ant-abc" ++ [0x0A] in
  whitespace_only s = false
  /\ has_control_char s = true
  /\ strip s = of_string "sk-ant-abc"
  /\ _validate_api_key s = Raise (ValueError ControlCharacters).
Proof.
  intros s. repeat (split; [reflexivity |]).
  apply (validate_rejects_control_chars s); reflexivity.
Defined.

(** C7.  The validator is idempotent: its output validates to itself. *)
Theorem validate_idempotent (s k : str)
    (Hok : _validate_api_key s = Ok k) :
  _validate_api_key k = Ok k.
Proof.
  apply validate_ok_inv in Hok as (-> & Hws & Hcc & _ & Hp).
  rewrite <- (strip_idempotent s) at 2.
  apply validate_ok_intro.
  - now rewrite whitespace_only_strip.
  - now apply strip_no_control_char.
  - now rewrite strip_idempotent.
Qed.

Lemma validate_idempotent_witness :
  let s := of_string "  sk-ant-abc123  " in
  let k := of_string "sk-ant-abc123" in
  _validate_api_key s = Ok k /\ _validate_api_key k = Ok k.
Proof.
  intros s k. split; [reflexivity |].
  apply (validate_idempotent s k). reflexivity.
Defined.

(** C8.  The checks are ordered: an empty or whitespace-only string is
    rejected with EmptyOrWhitespace even when it contains control
    characters, never with ControlCharacters. *)
Theorem validate_rejects_blank_first (s : str)
    (Hblank : whitespace_only s = true) :
  _validate_api_key s = Raise (ValueError EmptyOrWhitespace)
  /\ _validate_api_key s <> Raise (ValueError ControlCharacters).
Proof.
  assert (H : _validate_api_key s = Raise (ValueError EmptyOrWhitespace)).
  { unfold _validate_api_key. now rewrite first_guard, Hblank. }
  split; [exact H |]. rewrite H. discriminate.
Qed.

Lemma validate_rejects_blank_first_witness :
  let s := [0x0A; 0x09] in
  whitespace_only s = true
  /\ has_control_char s = true
  /\ _validate_api_key s = Raise (ValueError EmptyOrWhitespace).
Proof.
  intros s. repeat (split; [reflexivity |]).
  apply (validate_rejects_blank_first s). reflexivity.
Defined.

(** ** The resolver *)

Section ResolverFacts.

Implicit Types (w : World) (key : option str).

(** The three ways a call of [_get_api_key_from_credential_store] can go,
    with the lookups each one performs. *)
Lemma get_api_key_run w :
  run _get_api_key_from_credential_store w =
  match aden_tools_credentials w with
  | None =>
      (Ok (environ w !! ANTHROPIC_API_KEY),
       [ImportCredentials; EnvironGet ANTHROPIC_API_KEY])
  | Some creds =>
      if is_available creds anthropic then
        (Ok (get creds anthropic),
         [ImportCredentials; StoreIsAvailable anthropic; StoreGet anthropic])
      else
        (Ok (environ w !! ANTHROPIC_API_KEY),
         [ImportCredentials; StoreIsAvailable anthropic;
          EnvironGet ANTHROPIC_API_KEY])
  end.
Proof.
  unfold run, _get_api_key_from_credential_store, try_except_ImportError,
    import_CredentialStoreAdapter_default, creds_is_available, creds_get,
    os_environ_get, log, ask, raise, mbind, M_bind, mret, M_ret.
  simpl. destruct (aden_tools_credentials w) as [creds |]; simpl;
    [destruct (is_available creds anthropic) |]; reflexivity.
Qed.

(** The function never raises. *)
Lemma get_api_key_total w :
  exists v, outcome _get_api_key_from_credential_store w = Ok v.
Proof.
  unfold outcome. rewrite get_api_key_run.
  destruct (aden_tools_credentials w) as [creds |];
    [destruct (is_available creds anthropic) |]; eexists; reflexivity.
Qed.

Lemma raw_api_key_explicit s w :
  s <> [] -> run (raw_api_key (Some s)) w = (Ok (Some s), []).
Proof. destruct s; [congruence | reflexivity]. Qed.

Lemma raw_api_key_falsy key w :
  truthy key = false ->
  run (raw_api_key key) w = run _get_api_key_from_credential_store w.
Proof. unfold run, raw_api_key. now intros ->. Qed.

(** The constructor in terms of the resolved key. *)
Lemma init_outcome key model_name w :
  outcome (AnthropicProvider.__init__ key model_name) w =
  match outcome (raw_api_key key) w with
  | Ok (Some raw_key) =>
      if str_bool raw_key then
        match _validate_api_key raw_key with
        | Ok validated =>
            Ok {| AnthropicProvider.api_key := validated;
                  AnthropicProvider.model := model_name;
                  AnthropicProvider._provider :=
                    {| LiteLLMProvider.model := model_name;
                       LiteLLMProvider.api_key := validated |} |}
        | Raise e => Raise e
        end
      else Raise (ValueError MissingCredential)
  | Ok None => Raise (ValueError MissingCredential)
  | Raise e => Raise e
  end.
Proof.
  unfold outcome, run, AnthropicProvider.__init__, mbind, M_bind, lift,
    raise, mret, M_ret.
  destruct (raw_api_key key w []) as [[[raw_key |] | e] tr]; simpl;
    try reflexivity.
  destruct (str_bool raw_key); simpl; [| reflexivity].
  destruct (_validate_api_key raw_key); reflexivity.
Qed.

(** A falsy resolved key makes the constructor raise MissingCredential. *)
Lemma init_missing key model_name w v :
  outcome (raw_api_key key) w = Ok v -> truthy v = false ->
  outcome (AnthropicProvider.__init__ key model_name) w
  = Raise (ValueError MissingCredential).
Proof.
  intros Hraw Hv. rewrite init_outcome, Hraw.
  destruct v as [raw_key |]; [| reflexivity].
  simpl in Hv. now rewrite Hv.
Qed.

(** With no truthy explicit key, a store that contributes nothing truthy
    and an environment variable that is unset or empty, the resolved key
    is falsy. *)
Lemma resolve_nothing key w :
  truthy key = false ->
  truthy (store_value w) = false ->
  truthy (environ w !! ANTHROPIC_API_KEY) = false ->
  exists v, outcome (raw_api_key key) w = Ok v /\ truthy v = false.
Proof.
  intros Hkey Hstore Henv. unfold outcome.
  rewrite (raw_api_key_falsy _ _ Hkey), get_api_key_run.
  unfold store_value in Hstore.
  destruct (aden_tools_credentials w) as [creds |];
    [destruct (is_available creds anthropic) |];
    eexists; split; simpl; try reflexivity; assumption.
Qed.

(** A constructed instance holds a key that the validator returned. *)
Lemma init_ok_validated key model_name w p :
  outcome (AnthropicProvider.__init__ key model_name) w = Ok p ->
  exists raw_key,
    _validate_api_key raw_key = Ok (AnthropicProvider.api_key p).
Proof.
  rewrite init_outcome.
  destruct (outcome (raw_api_key key) w) as [[raw_key |] | e];
    try discriminate.
  destruct (str_bool raw_key); [| discriminate].
  destruct (_validate_api_key raw_key) as [validated | e] eqn:Hv;
    [| discriminate].
  intros [= <-]. now exists raw_key.
Qed.

End ResolverFacts.

(** ** Messages *)

(** X14.  The five reasons are raised with five different texts, and two
    UnexpectedFormat errors have the same text only when they show the same
    characters: the text of a raised [ValueError] determines its reason. *)
Lemma message_inj (r1 r2 : Reason) : message r1 = message r2 -> r1 = r2.
Proof.
  intros H.
  assert (H18 : nth 18 (message r1) 0 = nth 18 (message r2) 0) by now rewrite H.
  destruct r1 as [| | | | shown1], r2 as [| | | | shown2];
    try reflexivity; try (vm_compute in H18; discriminate H18).
  unfold message in H. rewrite !app_assoc in H.
  apply app_inv_tail in H. apply app_inv_head in H. now subst.
Qed.

(** ** The resolver and the constructor *)

(** C1, as stated, fails for the empty explicit key: [api_key or ...] finds
    it falsy, so the store is consulted and its key is used instead. *)
Lemma explicit_empty_key_is_looked_up :
  run (raw_api_key (Some [])) world_both_set
  = (Ok (Some (of_string "sk-ant-store")),
     [ImportCredentials; StoreIsAvailable anthropic; StoreGet anthropic])
  /\ run (raw_api_key (Some [])) world_both_set <> (Ok (Some []), []).
Proof. split; [reflexivity | discriminate]. Qed.

(** C1 (amended).  Whatever the store and the environment hold, a non-empty
    explicit [api_key] is the resolved key, and neither resolving it nor
    the whole construction performs any store or environment lookup. *)
Theorem explicit_key_wins (w : World) (k model_name : str)
    (Hk : str_bool k = true) :
  run (raw_api_key (Some k)) w = (Ok (Some k), [])
  /\ lookups (AnthropicProvider.__init__ (Some k) model_name) w = [].
Proof.
  destruct k as [|c k]; [discriminate |]. split; [reflexivity |].
  unfold lookups, run, AnthropicProvider.__init__, mbind, M_bind, lift.
  simpl. destruct (_validate_api_key (c :: k)); reflexivity.
Qed.

Lemma explicit_key_wins_witness :
  let k := of_string "sk-ant-explicit" in
  str_bool k = true
  /\ store_value world_both_set = Some (of_string "sk-ant-store")
  /\ environ world_both_set !! ANTHROPIC_API_KEY = Some (of_string "sk-ant-env")
  /\ run (raw_api_key (Some k)) world_both_set = (Ok (Some k), []).
Proof.
  intros k. repeat (split; [vm_compute; reflexivity |]).
  apply (explicit_key_wins world_both_set k AnthropicProvider.default_model).
  reflexivity.
Defined.

(** C2, as stated, fails when the store reports the credential available
    and [get] returns [None]: that [None] is returned at once and the
    environment variable, although set, is never read. *)
Lemma available_without_value_skips_environ :
  store_value world_store_silent = None
  /\ environ world_store_silent !! ANTHROPIC_API_KEY
     = Some (of_string "sk-ant-env")
  /\ run _get_api_key_from_credential_store world_store_silent
     = (Ok None,
        [ImportCredentials; StoreIsAvailable anthropic; StoreGet anthropic])
  /\ outcome _get_api_key_from_credential_store world_store_silent
     <> Ok (environ world_store_silent !! ANTHROPIC_API_KEY).
Proof.
  repeat (split; [vm_compute; reflexivity |]). vm_compute. discriminate.
Qed.

(** C2 (amended).  For every importable store that reports the
    ["anthropic"] credential not available, the resolver reads
    [ANTHROPIC_API_KEY] from the environment and returns what it finds. *)
Theorem store_unavailable_falls_back (w : World) (creds : CredentialStoreAdapter)
    (Himport : aden_tools_credentials w = Some creds)
    (Hunavailable : is_available creds anthropic = false) :
  run _get_api_key_from_credential_store w
  = (Ok (environ w !! ANTHROPIC_API_KEY),
     [ImportCredentials; StoreIsAvailable anthropic;
      EnvironGet ANTHROPIC_API_KEY]).
Proof. now rewrite get_api_key_run, Himport, Hunavailable. Qed.

Lemma store_unavailable_falls_back_witness :
  aden_tools_credentials world_store_empty = Some store_empty
  /\ is_available store_empty anthropic = false
  /\ outcome _get_api_key_from_credential_store world_store_empty
     = Ok (Some (of_string "sk-ant-env")).
Proof.
  repeat (split; [reflexivity |]).
  unfold outcome.
  rewrite (store_unavailable_falls_back world_store_empty store_empty);
    [vm_compute | ..]; reflexivity.
Defined.

(** C9.  When importing the credential store raises [ImportError], the
    resolver does not raise: it reads [ANTHROPIC_API_KEY] and returns its
    value, or [None] when the variable is unset. *)
Theorem store_unimportable_falls_back (w : World)
    (Himport : aden_tools_credentials w = None) :
  run _get_api_key_from_credential_store w
  = (Ok (environ w !! ANTHROPIC_API_KEY),
     [ImportCredentials; EnvironGet ANTHROPIC_API_KEY])
  /\ run (raw_api_key None) w = run _get_api_key_from_credential_store w.
Proof. split; [now rewrite get_api_key_run, Himport | reflexivity]. Qed.

Lemma store_unimportable_falls_back_witness :
  aden_tools_credentials world_no_store = None
  /\ outcome (raw_api_key None) world_no_store
     = Ok (Some (of_string "sk-ant-env")).
Proof.
  split; [reflexivity |]. unfold outcome.
  destruct (store_unimportable_falls_back world_no_store eq_refl) as [Hget ->].
  rewrite Hget. vm_compute. reflexivity.
Defined.

(** C4.  When the explicit key, the store and the environment variable all
    fail to yield a key, construction raises MissingCredential, and so
    none of the validator's four reasons. *)
Theorem no_source_raises_missing_credential
    (key : option str) (model_name : str) (w : World)
    (Hkey : truthy key = false)
    (Hstore : truthy (store_value w) = false)
    (Henv : truthy (environ w !! ANTHROPIC_API_KEY) = false) :
  outcome (AnthropicProvider.__init__ key model_name) w
  = Raise (ValueError MissingCredential)
  /\ forall r,
       outcome (AnthropicProvider.__init__ key model_name) w
       = Raise (ValueError r) ->
       is_validator_reason r = false /\ message r = message MissingCredential.
Proof.
  destruct (resolve_nothing key w Hkey Hstore Henv) as (v & Hraw & Hv).
  pose proof (init_missing key model_name w v Hraw Hv) as Hinit.
  split; [exact Hinit |].
  intros r Hr. rewrite Hinit in Hr. injection Hr as <-. now split.
Qed.

Lemma no_source_raises_missing_credential_witness :
  truthy None = false
  /\ truthy (store_value world_bare) = false
  /\ truthy (environ world_bare !! ANTHROPIC_API_KEY) = false
  /\ outcome (AnthropicProvider.__init__ None AnthropicProvider.default_model)
       world_bare
     = Raise (ValueError MissingCredential).
Proof.
  repeat (split; [vm_compute; reflexivity |]).
  apply (no_source_raises_missing_credential None
           AnthropicProvider.default_model world_bare);
    vm_compute; reflexivity.
Defined.

(** C10.  With no explicit key, a store that yields nothing and
    [ANTHROPIC_API_KEY] set to the empty string, construction raises
    MissingCredential: the empty value counts as absent and is not handed
    to the validator, which would have raised EmptyOrWhitespace on it. *)
Theorem empty_variable_raises_missing_credential
    (model_name : str) (w : World)
    (Hstore : truthy (store_value w) = false)
    (Henv : environ w !! ANTHROPIC_API_KEY = Some []) :
  outcome (AnthropicProvider.__init__ None model_name) w
  = Raise (ValueError MissingCredential)
  /\ outcome (AnthropicProvider.__init__ None model_name) w
     <> Raise (ValueError EmptyOrWhitespace)
  /\ _validate_api_key [] = Raise (ValueError EmptyOrWhitespace).
Proof.
  assert (Hfalsy : truthy (environ w !! ANTHROPIC_API_KEY) = false)
    by exact (f_equal truthy Henv).
  destruct (resolve_nothing None w eq_refl Hstore Hfalsy) as (v & Hraw & Hv).
  rewrite (init_missing None model_name w v Hraw Hv).
  split; [reflexivity | split; [discriminate | reflexivity]].
Qed.

Lemma empty_variable_raises_missing_credential_witness :
  truthy (store_value world_empty_variable) = false
  /\ environ world_empty_variable !! ANTHROPIC_API_KEY = Some []
  /\ _validate_api_key [] = Raise (ValueError EmptyOrWhitespace)
  /\ outcome (AnthropicProvider.__init__ None AnthropicProvider.default_model)
       world_empty_variable
     = Raise (ValueError MissingCredential).
Proof.
  repeat (split; [vm_compute; reflexivity |]).
  apply (empty_variable_raises_missing_credential
           AnthropicProvider.default_model world_empty_variable);
    vm_compute; reflexivity.
Defined.

(** Every key the validator returns satisfies the invariant. *)
Lemma validate_ok_invariant (s k : str) :
  _validate_api_key s = Ok k -> key_invariant k.
Proof.
  intros Hok. apply validate_ok_inv in Hok as (-> & Hws & Hcc & _ & Hp).
  pose proof (strip_no_control_char s Hcc) as Hcc'.
  apply startswith_spec in Hp as (rest & Hrest).
  repeat split.
  - rewrite Hrest. discriminate.
  - intros c Hc Hin.
    assert (has_control_char (strip s) = true)
      by (apply has_control_char_spec; now exists c).
    congruence.
  - apply strip_head.
  - apply strip_last.
  - intros q Hq ((t & Ht) & _). rewrite Hrest in Ht.
    injection Ht as <- _.
    destruct Hq as [Hq | [Hq | []]]; discriminate Hq.
  - now exists rest.
Qed.

(** C6.  The [api_key] field of every successfully constructed provider
    satisfies the invariant, whichever source the key came from. *)
Theorem constructed_key_invariant
    (key : option str) (model_name : str) (w : World)
    (p : AnthropicProvider.t)
    (Hok : outcome (AnthropicProvider.__init__ key model_name) w = Ok p) :
  key_invariant (AnthropicProvider.api_key p)
  /\ LiteLLMProvider.api_key (AnthropicProvider._provider p)
     = AnthropicProvider.api_key p.
Proof.
  split.
  - destruct (init_ok_validated key model_name w p Hok) as (raw_key & Hv).
    exact (validate_ok_invariant raw_key _ Hv).
  - rewrite init_outcome in Hok.
    destruct (outcome (raw_api_key key) w) as [[raw_key |] | e];
      try discriminate.
    destruct (str_bool raw_key); [| discriminate].
    destruct (_validate_api_key raw_key); [| discriminate].
    now injection Hok as <-.
Qed.

Lemma constructed_key_invariant_witness :
  exists p,
    outcome (AnthropicProvider.__init__ None AnthropicProvider.default_model)
      world_no_store = Ok p
    /\ AnthropicProvider.api_key p = of_string "sk-ant-env"
    /\ key_invariant (AnthropicProvider.api_key p).
Proof.
  eexists. split; [vm_compute; reflexivity |]. split; [reflexivity |].
  eapply (constructed_key_invariant None AnthropicProvider.default_model
            world_no_store).
  vm_compute. reflexivity.
Defined.

(** * Further properties *)

(** ** Trimming and padding *)

Section PaddingFacts.

Implicit Types (s l r x : str) (c : char).

Lemma lstrip_app_blank l x :
  whitespace_only l = true -> lstrip (l ++ x) = lstrip x.
Proof.
  induction l as [|c l IH]; simpl; [reflexivity |].
  destruct (isspace c); simpl; [exact IH | discriminate].
Qed.

Lemma rstrip_app_blank x r :
  whitespace_only r = true -> rstrip (x ++ r) = rstrip x.
Proof.
  intros Hr. unfold rstrip. rewrite rev_app_distr, lstrip_app_blank;
    [reflexivity | now rewrite whitespace_only_rev].
Qed.

Lemma lstrip_app_solid s x :
  whitespace_only s = false -> lstrip (s ++ x) = lstrip s ++ x.
Proof.
  induction s as [|c s IH]; simpl; [discriminate |].
  destruct (isspace c); simpl; [exact IH | reflexivity].
Qed.

(** Whitespace around a string does not change what trimming leaves. *)
Lemma strip_pad l s r :
  whitespace_only l = true -> whitespace_only r = true ->
  strip (l ++ s ++ r) = strip s.
Proof.
  intros Hl Hr. unfold strip. rewrite (lstrip_app_blank l _ Hl).
  destruct (whitespace_only s) eqn:Hs.
  - assert (Hsr : whitespace_only (s ++ r) = true)
      by now rewrite whitespace_only_app, Hs, Hr.
    apply lstrip_nil in Hsr. apply lstrip_nil in Hs. now rewrite Hsr, Hs.
  - rewrite (lstrip_app_solid s r Hs). now apply rstrip_app_blank.
Qed.

Lemma existsb_orb {A} (f g : A -> bool) (xs : list A) :
  existsb (fun a => f a || g a) xs = existsb f xs || existsb g xs.
Proof.
  induction xs as [|a xs IH]; simpl; [reflexivity |].
  rewrite IH. destruct (f a), (g a), (existsb f xs); reflexivity.
Qed.

Lemma has_control_char_app s x :
  has_control_char (s ++ x) = has_control_char s || has_control_char x.
Proof.
  unfold has_control_char. rewrite <- existsb_orb.
  induction control_chars as [|c cs IH]; simpl; [reflexivity |].
  rewrite IH. unfold contains. now rewrite existsb_app.
Qed.

(** A string whose first and last characters are not whitespace is its own
    trimmed form. *)
Lemma strip_fixed s :
  (forall c t, s = c :: t -> isspace c = false) ->
  (forall t c, s = t ++ [c] -> isspace c = false) ->
  strip s = s.
Proof.
  intros Hhead Hlast. unfold strip. rewrite (lstrip_fixed s Hhead).
  now apply rstrip_fixed.
Qed.

(** The validator as a cascade over the vocabulary of the specification. *)
Lemma validate_cascade s :
  _validate_api_key s =
  if whitespace_only s then Raise (ValueError EmptyOrWhitespace)
  else if has_control_char s then Raise (ValueError ControlCharacters)
  else if quote_wrapped (strip s) then Raise (ValueError QuotedKey)
  else if startswith (strip s) key_prefix then Ok (strip s)
  else Raise (ValueError (UnexpectedFormat (firstn 10 (strip s)))).
Proof.
  unfold _validate_api_key. rewrite first_guard.
  fold (has_control_char s). fold (quote_wrapped (strip s)).
  destruct (whitespace_only s), (has_control_char s),
    (quote_wrapped (strip s)), (startswith (strip s) key_prefix);
    reflexivity.
Qed.

End PaddingFacts.

(** ** More on the validator *)

(** X1.  A string wrapped in a pair of equal quote characters, double or
    single, is rejected with QuotedKey whatever stands between the quotes
    (a well-formed key included), as long as it has no control character;
    a lone quote character is rejected in the same way. *)
Theorem validate_rejects_quoted (q : char) (inner : str)
    (Hq : q = 0x22 \/ q = 0x27)
    (Hinner : has_control_char inner = false) :
  _validate_api_key (q :: inner ++ [q]) = Raise (ValueError QuotedKey)
  /\ _validate_api_key [q] = Raise (ValueError QuotedKey).
Proof.
  assert (Hsp : isspace q = false) by (destruct Hq as [-> | ->]; reflexivity).
  assert (Hcq : has_control_char [q] = false)
    by (destruct Hq as [-> | ->]; reflexivity).
  assert (Hqw : forall x, startswith x [q] = true -> endswith x [q] = true ->
                          quote_wrapped x = true).
  { intros x Hs He. unfold quote_wrapped, double_quote, single_quote.
    apply orb_true_iff.
    destruct Hq as [-> | ->]; [left | right];
      apply andb_true_iff; split; assumption. }
  split; [| destruct Hq as [-> | ->]; reflexivity].
  assert (Hstrip : strip (q :: inner ++ [q]) = q :: inner ++ [q]).
  { apply strip_fixed.
    - intros c t [= <- _]. exact Hsp.
    - intros t c Heq. change (q :: inner ++ [q]) with ((q :: inner) ++ [q]) in Heq.
      apply app_inj_tail in Heq as [_ <-]. exact Hsp. }
  rewrite validate_cascade, Hstrip.
  assert (Hws : whitespace_only (q :: inner ++ [q]) = false)
    by (simpl; now rewrite Hsp).
  assert (Hcc : has_control_char (q :: inner ++ [q]) = false).
  { change (q :: inner ++ [q]) with ([q] ++ inner ++ [q]).
    now rewrite !has_control_char_app, Hcq, Hinner. }
  rewrite Hws, Hcc, Hqw; [reflexivity | |].
  - apply startswith_spec. now exists (inner ++ [q]).
  - apply endswith_spec. now exists (q :: inner).
Qed.

Lemma validate_rejects_quoted_witness :
  let inner := of_string "sk-ant-abc123" in
  (0x22 = 0x22 \/ 0x22 = 0x27)
  /\ has_control_char inner = false
  /\ _validate_api_key inner = Ok inner
  /\ _validate_api_key (0x22 :: inner ++ [0x22]) = Raise (ValueError QuotedKey).
Proof.
  intros inner. split; [left; reflexivity |].
  repeat (split; [reflexivity |]).
  apply (validate_rejects_quoted 0x22 inner); [left |]; reflexivity.
Defined.

(** X2.  A string that passes the blank, control-character and quote tests
    but whose trimmed form does not start with [sk-ant-] is rejected with
    UnexpectedFormat, and the error carries a prefix of the trimmed key of
    at most ten characters: the whole key when it is shorter, its first
    ten characters otherwise, and nothing more of it. *)
Theorem validate_unexpected_format_shows_ten (s : str)
    (Hnotblank : whitespace_only s = false)
    (Hcontrol : has_control_char s = false)
    (Hquote : quote_wrapped (strip s) = false)
    (Hprefix : startswith (strip s) key_prefix = false) :
  exists shown hidden,
    _validate_api_key s = Raise (ValueError (UnexpectedFormat shown))
    /\ strip s = shown ++ hidden
    /\ length shown = Nat.min 10 (length (strip s)).
Proof.
  exists (firstn 10 (strip s)), (skipn 10 (strip s)).
  rewrite validate_cascade, Hnotblank, Hcontrol, Hquote, Hprefix.
  split; [reflexivity |]. split.
  - symmetry. apply firstn_skipn.
  - apply length_firstn.
Qed.

Lemma validate_unexpected_format_shows_ten_witness :
  let s := of_string " sk-proj-0123456789abcdef " in
  whitespace_only s = false
  /\ has_control_char s = false
  /\ quote_wrapped (strip s) = false
  /\ startswith (strip s) key_prefix = false
  /\ _validate_api_key s
     = Raise (ValueError (UnexpectedFormat (of_string "sk-proj-01")))
  /\ exists shown hidden,
       _validate_api_key s = Raise (ValueError (UnexpectedFormat shown))
       /\ strip s = shown ++ hidden
       /\ length shown = Nat.min 10 (length (strip s)).
Proof.
  intros s. repeat (split; [reflexivity |]).
  apply (validate_unexpected_format_shows_ten s); reflexivity.
Defined.

(** X3.  The validator accepts a string exactly when the string has none
    of the five control characters and its trimmed form starts with
    [sk-ant-]; what it returns is then the trimmed form.  The blank test
    and the quote test never reject a string that meets these two
    conditions. *)
Theorem validate_ok_iff (s k : str) :
  _validate_api_key s = Ok k
  <-> has_control_char s = false
      /\ startswith (strip s) key_prefix = true
      /\ k = strip s.
Proof.
  split.
  - intros Hok. apply validate_ok_inv in Hok as (-> & _ & Hcc & _ & Hp).
    now repeat split.
  - intros (Hcc & Hp & ->). apply validate_ok_intro; try assumption.
    destruct (whitespace_only s) eqn:Hws; [| reflexivity].
    apply strip_nil in Hws. rewrite Hws in Hp. discriminate Hp.
Qed.

(** X4.  Whitespace that holds no control character (spaces, for one)
    before and after a string does not change what the validator makes of
    it: the same key is returned, or the same error is raised. *)
Theorem validate_padding_invariant (l s r : str)
    (Hl : whitespace_only l = true) (Hr : whitespace_only r = true)
    (Hlc : has_control_char l = false) (Hrc : has_control_char r = false) :
  _validate_api_key (l ++ s ++ r) = _validate_api_key s.
Proof.
  rewrite !validate_cascade, (strip_pad l s r Hl Hr).
  rewrite !whitespace_only_app, Hl, Hr, andb_true_r. simpl.
  rewrite !has_control_char_app, Hlc, Hrc, orb_false_r. simpl.
  reflexivity.
Qed.

Lemma validate_padding_invariant_witness :
  let l := [0x20; 0xA0] in
  let r := [0x3000; 0x20] in
  let s := of_string "sk-ant-abc123" in
  whitespace_only l = true /\ whitespace_only r = true
  /\ has_control_char l = false /\ has_control_char r = false
  /\ _validate_api_key s = Ok s
  /\ _validate_api_key (l ++ s ++ r) = _validate_api_key s.
Proof.
  intros l r s. repeat (split; [reflexivity |]).
  apply (validate_padding_invariant l s r); reflexivity.
Defined.

(** ** More on the resolver and the constructor *)

Section ConstructorFacts.

Implicit Types (w : World) (key : option str) (k v model_name : str).

Lemma raw_api_key_run key w :
  run (raw_api_key key) w =
  if truthy key then (Ok key, [])
  else run _get_api_key_from_credential_store w.
Proof. unfold run, raw_api_key. now destruct (truthy key). Qed.

(** The constructor, trace included, in terms of the resolved key. *)
Lemma init_run key model_name w :
  run (AnthropicProvider.__init__ key model_name) w =
  let (resolved, tr) := run (raw_api_key key) w in
  match resolved with
  | Ok (Some raw_key) =>
      if str_bool raw_key
      then (construction model_name (_validate_api_key raw_key), tr)
      else (Raise (ValueError MissingCredential), tr)
  | Ok None => (Raise (ValueError MissingCredential), tr)
  | Raise e => (Raise e, tr)
  end.
Proof.
  unfold run, AnthropicProvider.__init__, mbind, M_bind, lift, raise, mret,
    M_ret, construction, instance.
  destruct (raw_api_key key w []) as [[[raw_key |] | e] tr]; simpl;
    try reflexivity.
  destruct (str_bool raw_key); simpl; [| reflexivity].
  destruct (_validate_api_key raw_key); reflexivity.
Qed.



End ConstructorFacts.

(** X5.  The store has priority over the environment.  With no usable
    explicit key, an importable store that reports ["anthropic"] available
    and returns a non-empty value decides the construction alone: the
    value goes to the validator, whose answer is the constructor's, and
    [os.environ] is not read, whatever it holds. *)
Theorem store_value_decides_construction
    (key : option str) (model_name v : str) (w : World)
    (creds : CredentialStoreAdapter)
    (Hkey : truthy key = false)
    (Himport : aden_tools_credentials w = Some creds)
    (Havailable : is_available creds anthropic = true)
    (Hget : get creds anthropic = Some v)
    (Hv : str_bool v = true) :
  run (AnthropicProvider.__init__ key model_name) w
  = (construction model_name (_validate_api_key v),
     [ImportCredentials; StoreIsAvailable anthropic; StoreGet anthropic]).
Proof.
  rewrite init_run, raw_api_key_run, Hkey, get_api_key_run, Himport,
    Havailable, Hget.
  now rewrite Hv.
Qed.

Lemma store_value_decides_construction_witness :
  let creds := store_with (of_string " sk-ant-store ") in
  let w := {| aden_tools_credentials := Some creds;
              environ := env_with (of_string "sk-ant-env") |} in
  truthy None = false
  /\ aden_tools_credentials w = Some creds
  /\ is_available creds anthropic = true
  /\ get creds anthropic = Some (of_string " sk-ant-store ")
  /\ str_bool (of_string " sk-ant-store ") = true
  /\ outcome (AnthropicProvider.__init__ None AnthropicProvider.default_model) w
     = Ok (instance AnthropicProvider.default_model (of_string "sk-ant-store")).
Proof.
  intros creds w. repeat (split; [reflexivity |]).
  unfold outcome.
  rewrite (store_value_decides_construction None
             AnthropicProvider.default_model (of_string " sk-ant-store ")
             w creds); reflexivity.
Defined.

(** X6.  A store that reports ["anthropic"] available but returns [None]
    or the empty string for it ends the resolution: with no usable
    explicit key the constructor raises MissingCredential without reading
    [os.environ], even when [ANTHROPIC_API_KEY] holds a well-formed key. *)
Theorem store_without_value_raises_missing_credential
    (key : option str) (model_name : str) (w : World)
    (creds : CredentialStoreAdapter)
    (Hkey : truthy key = false)
    (Himport : aden_tools_credentials w = Some creds)
    (Havailable : is_available creds anthropic = true)
    (Hget : truthy (get creds anthropic) = false) :
  run (AnthropicProvider.__init__ key model_name) w
  = (Raise (ValueError MissingCredential),
     [ImportCredentials; StoreIsAvailable anthropic; StoreGet anthropic]).
Proof.
  rewrite init_run, raw_api_key_run, Hkey, get_api_key_run, Himport,
    Havailable.
  destruct (get creds anthropic) as [v |]; [| reflexivity].
  simpl in Hget. now rewrite Hget.
Qed.

Lemma store_without_value_raises_missing_credential_witness :
  truthy None = false
  /\ aden_tools_credentials world_store_silent = Some store_silent
  /\ is_available store_silent anthropic = true
  /\ truthy (get store_silent anthropic) = false
  /\ _validate_api_key (of_string "sk-ant-env") = Ok (of_string "sk-ant-env")
  /\ environ world_store_silent !! ANTHROPIC_API_KEY
     = Some (of_string "sk-ant-env")
  /\ outcome (AnthropicProvider.__init__ None AnthropicProvider.default_model)
       world_store_silent
     = Raise (ValueError MissingCredential).
Proof.
  repeat (split; [vm_compute; reflexivity |]).
  unfold outcome.
  rewrite (store_without_value_raises_missing_credential None
             AnthropicProvider.default_model world_store_silent store_silent);
    reflexivity.
Defined.




(** X9.  With a non-empty explicit key the constructor is the validator:
    in every surroundings it builds the instance from the validator's
    result or raises the validator's exception unchanged, and it performs
    no lookup. *)
Theorem init_explicit_key_is_validation
    (k model_name : str) (w : World)
    (Hk : str_bool k = true) :
  run (AnthropicProvider.__init__ (Some k) model_name) w
  = (construction model_name (_validate_api_key k), []).
Proof.
  rewrite init_run, raw_api_key_run. simpl. now rewrite Hk, Hk.
Qed.

Lemma init_explicit_key_is_validation_witness :
  let k := [0x22] ++ of_string "sk-ant-abc123" ++ [0x22] in
  str_bool k = true
  /\ run (AnthropicProvider.__init__ (Some k) AnthropicProvider.default_model)
       world_both_set
     = (Raise (ValueError QuotedKey), []).
Proof.
  intros k. split; [reflexivity |].
  exact (init_explicit_key_is_validation k AnthropicProvider.default_model
           world_both_set eq_refl).
Defined.

(** X10.  An explicit key made of whitespace only, but not empty, is not
    treated as absent: the constructor raises EmptyOrWhitespace and asks
    neither the store nor the environment, even when they hold a
    well-formed key.  (The empty explicit key, by contrast, is resolved
    from the store and the environment.) *)
Theorem init_blank_explicit_key_raises
    (k model_name : str) (w : World)
    (Hnonempty : str_bool k = true)
    (Hblank : whitespace_only k = true) :
  run (AnthropicProvider.__init__ (Some k) model_name) w
  = (Raise (ValueError EmptyOrWhitespace), [])
  /\ run (AnthropicProvider.__init__ (Some []) model_name) w
     = run (AnthropicProvider.__init__ None model_name) w.
Proof.
  split; [| reflexivity].
  rewrite init_run, raw_api_key_run. simpl.
  now rewrite Hnonempty, Hnonempty, validate_cascade, Hblank.
Qed.

Lemma init_blank_explicit_key_raises_witness :
  let k := of_string "   " in
  str_bool k = true
  /\ whitespace_only k = true
  /\ outcome (AnthropicProvider.__init__ (Some []) AnthropicProvider.default_model)
       world_both_set
     = Ok (instance AnthropicProvider.default_model (of_string "sk-ant-store"))
  /\ run (AnthropicProvider.__init__ (Some k) AnthropicProvider.default_model)
       world_both_set
     = (Raise (ValueError EmptyOrWhitespace), []).
Proof.
  intros k. repeat (split; [reflexivity |]).
  apply (init_blank_explicit_key_raises k AnthropicProvider.default_model
           world_both_set); reflexivity.
Defined.

(** X11.  A construction depends on its surroundings only through what
    the store says about ["anthropic"] and what the environment holds for
    [ANTHROPIC_API_KEY]: two surroundings that agree on these give the
    same result and the same lookups, whatever else the store holds and
    whatever other variables are set. *)
Theorem init_depends_on_anthropic_sources_only
    (key : option str) (model_name : str) (w1 w2 : World)
    (Hsame : same_anthropic_sources w1 w2) :
  run (AnthropicProvider.__init__ key model_name) w1
  = run (AnthropicProvider.__init__ key model_name) w2.
Proof.
  rewrite !init_run, !raw_api_key_run.
  destruct (truthy key); [reflexivity |].
  rewrite !get_api_key_run.
  destruct Hsame as [Hstore Henv]. rewrite <- Henv.
  destruct (aden_tools_credentials w1) as [c1 |],
           (aden_tools_credentials w2) as [c2 |];
    try contradiction; [| reflexivity].
  destruct Hstore as [<- <-]. reflexivity.
Qed.

Lemma init_depends_on_anthropic_sources_only_witness :
  same_anthropic_sources world_store_empty world_busy
  /\ environ world_busy !! of_string "HOME" = Some (of_string "/root")
  /\ get store_busy (of_string "openai") = Some (of_string "sk-other")
  /\ run (AnthropicProvider.__init__ None AnthropicProvider.default_model)
       world_store_empty
     = run (AnthropicProvider.__init__ None AnthropicProvider.default_model)
         world_busy.
Proof.
  split; [split; [split |]; vm_compute; reflexivity |].
  repeat (split; [vm_compute; reflexivity |]).
  apply (init_depends_on_anthropic_sources_only None
           AnthropicProvider.default_model world_store_empty world_busy).
  split; [split |]; vm_compute; reflexivity.
Defined.

(** X12.  With no usable explicit key and no store offering the
    credential, the environment variable decides: after
    [os.environ["ANTHROPIC_API_KEY"] = v] with [v] non-empty the
    constructor's answer is the validator's on [v], and after
    [del os.environ["ANTHROPIC_API_KEY"]] it raises MissingCredential. *)
Theorem environment_variable_decides_construction
    (key : option str) (model_name v : str) (w : World)
    (Hkey : truthy key = false)
    (Hstore : store_offers w = false)
    (Hv : str_bool v = true) :
  outcome (AnthropicProvider.__init__ key model_name)
    (setenv w ANTHROPIC_API_KEY v)
  = construction model_name (_validate_api_key v)
  /\ outcome (AnthropicProvider.__init__ key model_name)
       (unsetenv w ANTHROPIC_API_KEY)
     = Raise (ValueError MissingCredential).
Proof.
  assert (Hget : forall w', aden_tools_credentials w' = aden_tools_credentials w ->
            outcome _get_api_key_from_credential_store w'
            = Ok (environ w' !! ANTHROPIC_API_KEY)).
  { intros w' Hw'. unfold outcome. rewrite get_api_key_run, Hw'.
    unfold store_offers in Hstore.
    destruct (aden_tools_credentials w) as [creds |]; [| reflexivity].
    now rewrite Hstore. }
  assert (Hinit : forall w', aden_tools_credentials w' = aden_tools_credentials w ->
            outcome (AnthropicProvider.__init__ key model_name) w'
            = match environ w' !! ANTHROPIC_API_KEY with
              | Some raw_key =>
                  if str_bool raw_key
                  then construction model_name (_validate_api_key raw_key)
                  else Raise (ValueError MissingCredential)
              | None => Raise (ValueError MissingCredential)
              end).
  { intros w' Hw'. specialize (Hget w' Hw'). unfold outcome in *.
    rewrite init_run, raw_api_key_run, Hkey.
    destruct (run _get_api_key_from_credential_store w') as [resolved tr].
    simpl in Hget. subst resolved.
    destruct (environ w' !! ANTHROPIC_API_KEY) as [raw_key |];
      [destruct (str_bool raw_key) |]; reflexivity. }
  split.
  - rewrite (Hinit (setenv w ANTHROPIC_API_KEY v) eq_refl). simpl.
    rewrite lookup_insert_eq. now rewrite Hv.
  - rewrite (Hinit (unsetenv w ANTHROPIC_API_KEY) eq_refl). simpl.
    now rewrite lookup_delete_eq.
Qed.

Lemma environment_variable_decides_construction_witness :
  truthy None = false
  /\ store_offers world_bare = false
  /\ str_bool (of_string "  sk-ant-env  ") = true
  /\ outcome (AnthropicProvider.__init__ None AnthropicProvider.default_model)
       world_bare
     = Raise (ValueError MissingCredential)
  /\ outcome (AnthropicProvider.__init__ None AnthropicProvider.default_model)
       (setenv world_bare ANTHROPIC_API_KEY (of_string "  sk-ant-env  "))
     = Ok (instance AnthropicProvider.default_model (of_string "sk-ant-env")).
Proof.
  repeat (split; [vm_compute; reflexivity |]).
  apply (environment_variable_decides_construction None
           AnthropicProvider.default_model (of_string "  sk-ant-env  ")
           world_bare); reflexivity.
Defined.

(** X13.  The model name is never inspected: construction with two model
    names succeeds or fails alike, with the same key, the same exception
    and the same lookups, and a successful construction stores the name it
    was given, in the instance and in the delegate handle. *)
Theorem init_model_is_passed_through
    (key : option str) (m1 m2 : str) (w : World) :
  lookups (AnthropicProvider.__init__ key m1) w
  = lookups (AnthropicProvider.__init__ key m2) w
  /\ match outcome (AnthropicProvider.__init__ key m1) w,
           outcome (AnthropicProvider.__init__ key m2) w with
     | Ok p1, Ok p2 =>
         AnthropicProvider.api_key p1 = AnthropicProvider.api_key p2
         /\ AnthropicProvider.model p1 = m1
         /\ LiteLLMProvider.model (AnthropicProvider._provider p1) = m1
         /\ AnthropicProvider.model p2 = m2
         /\ LiteLLMProvider.model (AnthropicProvider._provider p2) = m2
     | Raise e1, Raise e2 => e1 = e2
     | _, _ => False
     end.
Proof.
  unfold lookups, outcome. rewrite !init_run.
  destruct (run (raw_api_key key) w) as [[[raw_key |] | e] tr]; simpl;
    try (split; reflexivity).
  destruct (str_bool raw_key); simpl; [| split; reflexivity].
  destruct (_validate_api_key raw_key); simpl; repeat split; reflexivity.
Qed.

(** The text of the error raised for ["not-a-key"], and its reason. *)
Lemma message_inj_witness :
  message (UnexpectedFormat (of_string "not-a-key"))
  = of_string "Anthropic API key has unexpected format (expected to start with 'sk-ant-'). Received key starting with: 'not-a-key...'"
  /\ UnexpectedFormat (of_string "not-a-key")
     = UnexpectedFormat (firstn 10 (of_string "not-a-key")).
Proof.
  split; [reflexivity |].
  apply (message_inj
           (UnexpectedFormat (of_string "not-a-key"))
           (UnexpectedFormat (firstn 10 (of_string "not-a-key")))).
  reflexivity.
Defined.

(** ** The forwarding methods *)

Section FacadeFacts.

Variables Messages Tool ToolExecutor ResponseFormat LLMResponse : Type.

Variable delegate_complete :
  LiteLLMProvider.t -> Messages -> str -> option (list Tool) -> Z ->
  option ResponseFormat -> bool -> LLMResponse.

Variable delegate_complete_with_tools :
  LiteLLMProvider.t -> Messages -> str -> list Tool -> ToolExecutor -> Z ->
  LLMResponse.

(** X15.  On a successfully constructed provider, [complete] and
    [complete_with_tools] are the delegate's methods on the handle built
    from the model name given to the constructor and the stored,
    validated key: every argument reaches the delegate unchanged, an
    omitted one as its default, and the delegate's answer is returned
    as it is. *)
Theorem facade_forwards_to_delegate
    (key : option str) (model_name : str) (w : World)
    (p : AnthropicProvider.t)
    (Hok : outcome (AnthropicProvider.__init__ key model_name) w = Ok p)
    (messages : Messages) (system : str) (tools : list Tool)
    (max_tokens : Z) (response_format : option ResponseFormat)
    (json_mode : bool) (tool_executor : ToolExecutor) (max_iterations : Z) :
  let handle := {| LiteLLMProvider.model := model_name;
                   LiteLLMProvider.api_key := AnthropicProvider.api_key p |} in
  key_invariant (LiteLLMProvider.api_key handle)
  /\ complete _ _ _ _ delegate_complete p messages (Some system) (Some tools)
       (Some max_tokens) response_format (Some json_mode)
     = delegate_complete handle messages system (Some tools) max_tokens
         response_format json_mode
  /\ complete _ _ _ _ delegate_complete p messages None None None None None
     = delegate_complete handle messages [] None 1024%Z None false
  /\ complete_with_tools _ _ _ _ delegate_complete_with_tools p messages
       system tools tool_executor (Some max_iterations)
     = delegate_complete_with_tools handle messages system tools
         tool_executor max_iterations
  /\ complete_with_tools _ _ _ _ delegate_complete_with_tools p messages
       system tools tool_executor None
     = delegate_complete_with_tools handle messages system tools
         tool_executor 10%Z.
Proof.
  intros handle.
  destruct (init_ok_validated key model_name w p Hok) as (raw_key & Hv).
  assert (Hp : AnthropicProvider._provider p = handle).
  { unfold outcome in Hok. rewrite init_run in Hok.
    destruct (run (raw_api_key key) w) as [[[k |] | e] tr]; simpl in Hok;
      try discriminate.
    destruct (str_bool k); simpl in Hok; [| discriminate].
    destruct (_validate_api_key k); simpl in Hok; [| discriminate].
    now injection Hok as <-. }
  split; [exact (validate_ok_invariant raw_key _ Hv) |].
  unfold complete, complete_with_tools. rewrite Hp. now repeat split.
Qed.

End FacadeFacts.

Lemma facade_forwards_to_delegate_witness :
  let p := instance AnthropicProvider.default_model (of_string "sk-ant-env") in
  outcome (AnthropicProvider.__init__ None AnthropicProvider.default_model)
    world_no_store = Ok p
  /\ complete nat nat nat (str * Z) (fun h m _ _ n _ _ => (LiteLLMProvider.api_key h, n))
       p 0%nat None None None None None
     = (of_string "sk-ant-env", 1024%Z).
Proof.
  intros p. split; [vm_compute; reflexivity |].
  destruct (facade_forwards_to_delegate nat nat nat nat (str * Z)
              (fun h m _ _ n _ _ => (LiteLLMProvider.api_key h, n))
              (fun h _ _ _ _ n => (LiteLLMProvider.api_key h, n))
              None AnthropicProvider.default_model world_no_store p
              ltac:(vm_compute; reflexivity)
              0%nat [] [] 0%Z None false 0%nat 0%Z)
    as (_ & _ & Hdefault & _).
  exact Hdefault.
Defined.
